(** * A shallow embedding of react-viewmodel (src/src/index.tsx)

    The library wraps a model object in a JavaScript [Proxy] whose [get]
    trap lazily wraps nested [Watchable] objects and whose [set] trap only
    lets some writes through; [useSubscribe] polls a selector after each
    render; [useViewModelContext] reads the model published by
    [ViewModelProvider].

    The JavaScript heap is modelled explicitly: objects live at locations
    of a [gmap], proxies are heap cells of their own (so every
    [createProxy] call allocates a fresh, distinct object), and the traps
    run in a small state-and-exception monad. *)

From Stdlib Require Import Ascii String ZArith Bool List Lia.
From stdpp Require Import base gmap strings list pretty.



(* ------------------------------------------------------------------ *)
(** ** JavaScript values and the heap *)

Definition loc := nat.

(** Numbers are modelled as integers plus NaN (the only number on which
    [===] is not reflexive); fractional numbers and [-0] are left out. *)
Inductive val : Type :=
  | VUndefined
  | VNull
  | VBool (b : bool)
  | VNum (n : Z)
  | VNaN
  | VStr (s : string)
  | VSym (id : nat)
  | VRef (l : loc).

(** Property keys: [prop: string | symbol]. *)
Inductive key : Type :=
  | KStr (s : string)
  | KSym (id : nat).

(** Heap cells. Own properties are kept in insertion order; all are
    enumerable data properties. Prototype chains are not modelled: a
    class method lives on the prototype, so it is not an own property,
    and a missing own property reads as [undefined].
    - [CPlain ps]: an ordinary extensible object whose own properties
      are all writable (a class instance or an object literal).
    - [CFunction ps]: a function object ([typeof] is ['function']); its
      built-in [name], [length] and [prototype] are left out.
    - [CArray es ps]: an array with elements [es] and named own
      properties [ps] (keys that are neither array indices nor
      [length]).
    - [CLocked ps ro extensible]: an ordinary object whose own
      properties with a key in [ro] are non-writable and
      non-configurable, and which accepts new properties only when
      [extensible] holds; [Object.freeze(o)] gives [ro] = every key and
      [extensible] = false.
    - [CProxy t]: the exotic object built by [new Proxy(t, handler)]
      with the handler of [createProxy]. *)
Inductive cell : Type :=
  | CPlain (ps : list (key * val))
  | CFunction (ps : list (key * val))
  | CArray (es : list val) (ps : list (key * val))
  | CLocked (ps : list (key * val)) (ro : list key) (extensible : bool)
  | CProxy (target : loc).

Record state : Type := mkState {
  heap : gmap loc cell;
  next : loc
}.

(** Exceptions the code can raise. A [TypeError] carries V8's message,
    without the parts that quote a property or an object where V8 adds
    them. [RangeError] stands for the stack
    overflow of an unbounded proxy chain (fuel exhausted); [Unmodelled]
    marks behaviour of the JavaScript runtime this development leaves
    out. *)
Inductive exn : Type :=
  | TypeError (msg : string)
  | RangeError
  | Error (msg : string)
  | Unmodelled (what : string).

Inductive outcome (A : Type) : Type :=
  | Ok (a : A) (s : state)
  | Throw (e : exn) (s : state).
Arguments Ok {A} a s.
Arguments Throw {A} e s.

(** The state-and-exception monad. *)
Definition M (A : Type) : Type := state -> outcome A.

Definition ret {A} (a : A) : M A := fun s => Ok a s.
Definition bind {A B} (m : M A) (f : A -> M B) : M B :=
  fun s => match m s with
           | Ok a s' => f a s'
           | Throw e s' => Throw e s'
           end.
Definition throw {A} (e : exn) : M A := fun s => Throw e s.

Notation "'let!' x := m 'in' f" := (bind m (fun x => f))
  (at level 200, x name, m at level 100, f at level 200, right associativity).

Definition alloc_state (s : state) (c : cell) : state :=
  mkState (<[next s := c]> (heap s)) (S (next s)).

Definition alloc (c : cell) : M loc :=
  fun s => Ok (next s) (alloc_state s c).

(* ------------------------------------------------------------------ *)
(** ** Equalities and small operations *)

Definition key_eqb (a b : key) : bool :=
  match a, b with
  | KStr x, KStr y => String.eqb x y
  | KSym x, KSym y => Nat.eqb x y
  | _, _ => false
  end.

(** [a === b] *)
Definition strict_eq (a b : val) : bool :=
  match a, b with
  | VUndefined, VUndefined => true
  | VNull, VNull => true
  | VBool x, VBool y => Bool.eqb x y
  | VNum x, VNum y => Z.eqb x y
  | VStr x, VStr y => String.eqb x y
  | VSym x, VSym y => Nat.eqb x y
  | VRef x, VRef y => Nat.eqb x y
  | _, _ => false
  end.

(** [a !== b] *)
Definition strict_neq (a b : val) : bool := negb (strict_eq a b).

(** SameValueZero, the comparison of [Array.prototype.includes]; it only
    differs from [===] on NaN. *)
Definition same_value_zero (a b : val) : bool :=
  match a, b with
  | VNaN, VNaN => true
  | _, _ => strict_eq a b
  end.

(** ToBoolean, for [!context]. *)
Definition truthy (v : val) : bool :=
  match v with
  | VUndefined | VNull | VNaN => false
  | VBool b => b
  | VNum n => negb (Z.eqb n 0)
  | VStr s => negb (String.eqb s EmptyString)
  | VSym _ | VRef _ => true
  end.

(** The key passed on as a value: [prop as string]. *)
Definition key_val (k : key) : val :=
  match k with
  | KStr s => VStr s
  | KSym id => VSym id
  end.

(** [p.includes('.')] on a string. *)
Fixpoint has_dot (p : string) : bool :=
  match p with
  | EmptyString => false
  | String c r => Ascii.eqb c "."%char || has_dot r
  end.

(** [typeof prop === 'string' && prop.includes('.')] *)
Definition key_has_dot (k : key) : bool :=
  match k with KStr p => has_dot p | KSym _ => false end.

Fixpoint prop_lookup (ps : list (key * val)) (k : key) : option val :=
  match ps with
  | [] => None
  | (k', v) :: r => if key_eqb k k' then Some v else prop_lookup r k
  end.

Definition own_get (ps : list (key * val)) (k : key) : val :=
  match prop_lookup ps k with Some v => v | None => VUndefined end.

(** Ordinary assignment to an own data property: update in place, or
    append a new property at the end of the insertion order. *)
Fixpoint prop_update (ps : list (key * val)) (k : key) (v : val)
  : list (key * val) :=
  match ps with
  | [] => [(k, v)]
  | (k', v') :: r =>
      if key_eqb k k' then (k', v) :: r else (k', v') :: prop_update r k v
  end.

(** The value of a string of decimal digits. *)
Fixpoint digits_value (s : string) (acc : N) : option N :=
  match s with
  | EmptyString => Some acc
  | String c r =>
      let d := N.of_nat (nat_of_ascii c) in
      if (48 <=? d)%N && (d <=? 57)%N
      then digits_value r (acc * 10 + (d - 48))%N
      else None
  end.

(** The array index a string key denotes, if any: the canonical decimal
    form of some [n < 2^32 - 1]. *)
Definition canonical_index (s : string) : option N :=
  match digits_value s 0 with
  | Some n => if String.eqb (pretty n) s && (n <? 4294967295)%N then Some n else None
  | None => None
  end.

Fixpoint insert_N (n : N) (l : list N) : list N :=
  match l with
  | [] => [n]
  | m :: r => if (n <=? m)%N then n :: l else m :: insert_N n r
  end.

Fixpoint sort_N (l : list N) : list N :=
  match l with
  | [] => []
  | n :: r => insert_N n (sort_N r)
  end.

(** The own string keys that are array indices, and the other ones. *)
Fixpoint index_keys (ps : list (key * val)) : list N :=
  match ps with
  | [] => []
  | (KStr s, _) :: r =>
      match canonical_index s with
      | Some n => n :: index_keys r
      | None => index_keys r
      end
  | (KSym _, _) :: r => index_keys r
  end.

Fixpoint name_keys (ps : list (key * val)) : list string :=
  match ps with
  | [] => []
  | (KStr s, _) :: r =>
      match canonical_index s with
      | Some _ => name_keys r
      | None => s :: name_keys r
      end
  | (KSym _, _) :: r => name_keys r
  end.

(** [Object.keys] of an ordinary object (OrdinaryOwnPropertyKeys): the
    array-index keys in ascending numeric order, then the other string
    keys in insertion order; symbols are left out. *)
Definition object_keys (ps : list (key * val)) : list string :=
  map (fun n => pretty n) (sort_N (index_keys ps)) ++ name_keys ps.

(** Array index parsing: [s] is the canonical decimal form of some
    [i < n]. *)
Definition array_index (s : string) (n : nat) : option nat :=
  List.find (fun i => String.eqb (pretty (N.of_nat i)) s) (List.seq 0 n).

Definition array_get (es : list val) (ps : list (key * val)) (k : key) : val :=
  match k with
  | KStr "length" => VNum (Z.of_nat (List.length es))
  | KStr s =>
      match array_index s (List.length es) with
      | Some i => nth i es VUndefined
      | None => own_get ps k
      end
  | KSym _ => own_get ps k
  end.

Definition array_has (es : list val) (ps : list (key * val)) (k : key) : bool :=
  match k with
  | KStr "length" => true
  | KStr s =>
      if array_index s (List.length es) then true
      else match prop_lookup ps k with Some _ => true | None => false end
  | KSym _ => match prop_lookup ps k with Some _ => true | None => false end
  end.

(** A key the array keeps apart from its named properties: [length] or
    an array index. *)
Definition array_slot_key (k : key) : bool :=
  match k with
  | KStr "length" => true
  | KStr s => if canonical_index s then true else false
  | KSym _ => false
  end.

(** The value of a non-writable, non-configurable own data property. *)
Definition readonly_value (c : cell) (k : key) : option val :=
  match c with
  | CLocked ps ro _ => if existsb (key_eqb k) ro then prop_lookup ps k else None
  | _ => None
  end.

(* ------------------------------------------------------------------ *)
(** ** Object internals *)

(** The internal [[ProxyTarget]] chain: [typeof], [Array.isArray], the
    [in] operator and [Object.keys] all look through a proxy whose
    handler defines no [has], [ownKeys] or [getOwnPropertyDescriptor]
    trap, which is the case of [createProxy]'s handler. *)
Fixpoint resolve (fuel : nat) (h : gmap loc cell) (l : loc) : option cell :=
  match fuel with
  | O => None
  | S f =>
      match h !! l with
      | Some (CProxy t) => resolve f h t
      | Some c => Some c
      | None => None
      end
  end.

Definition deref (fuel : nat) (l : loc) : M cell :=
  fun s => match resolve fuel (heap s) l with
           | Some c => Ok c s
           | None => Throw RangeError s
           end.

(** [typeof x === 'object'] for an object [x]. *)
Definition cell_is_object (c : cell) : bool :=
  match c with
  | CFunction _ => false
  | _ => true
  end.

(** [Array.isArray(x)] *)
Definition cell_is_array (c : cell) : bool :=
  match c with
  | CArray _ _ => true
  | _ => false
  end.

(** [k in x] *)
Definition cell_has (c : cell) (k : key) : bool :=
  match c with
  | CPlain ps | CFunction ps | CLocked ps _ _ =>
      match prop_lookup ps k with Some _ => true | None => false end
  | CArray es ps => array_has es ps k
  | CProxy _ => false
  end.

(** [Object.keys(x)] *)
Definition cell_keys (c : cell) : list string :=
  match c with
  | CPlain ps | CFunction ps | CLocked ps _ _ => object_keys ps
  | CArray es ps =>
      map (fun i => pretty (N.of_nat i)) (List.seq 0 (List.length es)) ++ object_keys ps
  | CProxy _ => []
  end.

(** [arr.includes(x)], for the values the code calls it on. [Watchable]
    types [properties] as [string[]]; a string would run
    [String.prototype.includes], which is left out. *)
Definition includes (arr : val) (x : val) : M bool :=
  fun s =>
    match arr with
    | VUndefined =>
        Throw (TypeError "Cannot read properties of undefined (reading 'includes')") s
    | VNull =>
        Throw (TypeError "Cannot read properties of null (reading 'includes')") s
    | VStr _ => Throw (Unmodelled "String.prototype.includes") s
    | VRef l =>
        match heap s !! l with
        | Some (CArray es ps) =>
            match prop_lookup ps (KStr "includes") with
            | Some _ => Throw (Unmodelled "own includes method") s
            | None => Ok (existsb (same_value_zero x) es) s
            end
        | Some (CPlain ps) | Some (CFunction ps) | Some (CLocked ps _ _) =>
            match prop_lookup ps (KStr "includes") with
            | Some _ => Throw (Unmodelled "own includes method") s
            | None => Throw (TypeError "includes is not a function") s
            end
        | Some (CProxy _) => Throw (Unmodelled "includes on a proxy") s
        | None => Throw (Unmodelled "dangling reference") s
        end
    | _ => Throw (TypeError "includes is not a function") s
    end.

(** [new Proxy(obj, handler)] *)
Definition createProxy (obj : val) : M val :=
  match obj with
  | VRef l => let! p := alloc (CProxy l) in ret (VRef p)
  | _ => throw (TypeError "Cannot create proxy with a non-object as target or handler")
  end.

(* ------------------------------------------------------------------ *)
(** ** Property access and the two traps of [createProxy]

    [jget] is the [[Get]] of a heap object and [jset] the assignment
    [o[k] = v] (strict mode, as in an ES module). On a proxy they run the
    handler's traps, then the invariant checks of the proxy's [[Get]]
    and [[Set]] against a non-writable, non-configurable property of the
    target (SameValue is SameValueZero here, as [-0] is not modelled).
    The fuel bounds the depth of nested calls. *)

Fixpoint jget (fuel : nat) (l : loc) (k : key) {struct fuel} : M val :=
  match fuel with
  | O => throw RangeError
  | S f => fun s =>
      match heap s !! l with
      | Some (CPlain ps) | Some (CFunction ps) | Some (CLocked ps _ _) =>
          Ok (own_get ps k) s
      | Some (CArray es ps) => Ok (array_get es ps k) s
      | Some (CProxy t) =>
          (let! r := get_trap f t k in
           let! tc := deref f t in
           match readonly_value tc k with
           | Some v =>
               if same_value_zero v r then ret r
               else throw (TypeError "'get' on proxy: property is a read-only and non-configurable data property on the proxy target but the proxy did not return its actual value")
           | None => ret r
           end) s
      | None => Throw (Unmodelled "dangling reference") s
      end
  end

with jset (fuel : nat) (l : loc) (k : key) (v : val) {struct fuel} : M unit :=
  match fuel with
  | O => throw RangeError
  | S f => fun s =>
      match heap s !! l with
      | Some (CPlain ps) =>
          Ok tt (mkState (<[l := CPlain (prop_update ps k v)]> (heap s)) (next s))
      | Some (CFunction ps) =>
          Ok tt (mkState (<[l := CFunction (prop_update ps k v)]> (heap s)) (next s))
      | Some (CArray es ps) =>
          if array_slot_key k then Throw (Unmodelled "assignment to an array element") s
          else Ok tt (mkState (<[l := CArray es (prop_update ps k v)]> (heap s)) (next s))
      | Some (CLocked ps ro ext) =>
          match prop_lookup ps k with
          | Some _ =>
              if existsb (key_eqb k) ro
              then Throw (TypeError "Cannot assign to read only property") s
              else Ok tt (mkState (<[l := CLocked (prop_update ps k v) ro ext]> (heap s))
                                  (next s))
          | None =>
              if ext
              then Ok tt (mkState (<[l := CLocked (prop_update ps k v) ro ext]> (heap s))
                                  (next s))
              else Throw (TypeError "Cannot add property, object is not extensible") s
          end
      | Some (CProxy t) =>
          (let! ok := set_trap f t k v in
           if ok then
             (let! tc := deref f t in
              match readonly_value tc k with
              | Some cur =>
                  if same_value_zero cur v then ret tt
                  else throw (TypeError "'set' on proxy: trap returned truish for property which exists in the proxy target as a non-configurable and non-writable data property with a different value")
              | None => ret tt
              end)
           else throw (TypeError "'set' on proxy: trap returned falsish")) s
      | None => Throw (Unmodelled "dangling reference") s
      end
  end

(** [get(target, prop, receiver)] of index.tsx, lines 19-38. *)
with get_trap (fuel : nat) (target : loc) (prop : key) {struct fuel} : M val :=
  match fuel with
  | O => throw RangeError
  | S f =>
      let! value := jget f target prop in
      match value with
      | VRef vl =>
          let! vc := deref f vl in
          if cell_is_object vc && cell_has vc (KStr "properties") then
            let! tc := deref f target in
            let! _u :=
              (if cell_is_object tc && negb (cell_is_array tc) then
                 let! arr := alloc (CArray (map VStr (cell_keys tc)) []) in
                 jset f vl (KStr "properties") (VRef arr)
               else ret tt) in
            let! props := jget f vl (KStr "properties") in
            let! listed := includes props (key_val prop) in
            if listed then createProxy (VRef vl) else ret value
          else ret value
      | _ => ret value
      end
  end

(** [set(target, prop, value)] of index.tsx, lines 39-51. *)
with set_trap (fuel : nat) (target : loc) (prop : key) (value : val)
  {struct fuel} : M bool :=
  match fuel with
  | O => throw RangeError
  | S f =>
      let isNestedProp := key_has_dot prop in
      let! current := jget f target prop in
      let! allowed :=
        (if strict_neq current value then
           let! props := jget f target (KStr "properties") in
           let! listed := includes props (key_val prop) in
           ret (listed || isNestedProp)
         else ret false) in
      let! _u := (if allowed then jset f target prop value else ret tt) in
      ret true
  end.

(** [v[k]] and [v[k] = x] on any value. *)
Definition get_value (fuel : nat) (v : val) (k : key) : M val :=
  match v with
  | VRef l => jget fuel l k
  | VUndefined => throw (TypeError "Cannot read properties of undefined")
  | VNull => throw (TypeError "Cannot read properties of null")
  | _ => throw (Unmodelled "property read on a primitive")
  end.

Definition set_value (fuel : nat) (v : val) (k : key) (x : val) : M unit :=
  match v with
  | VRef l => jset fuel l k x
  | VUndefined => throw (TypeError "Cannot set properties of undefined")
  | VNull => throw (TypeError "Cannot set properties of null")
  | _ => throw (Unmodelled "property write on a primitive")
  end.

(* ------------------------------------------------------------------ *)
(** ** Hooks *)

(** [useViewModel(stateController)]: [useMemo] keeps the proxy built on
    an earlier render while the dependency is the same ([Object.is], the
    same as SameValueZero on this value model). The memo cell holds the
    dependency and the proxy. *)
Definition useViewModel (memo : option (val * loc)) (stateController : val)
  : M (val * loc) :=
  let fresh :=
    (let! p := createProxy stateController in
     match p with
     | VRef pl => ret (stateController, pl)
     | _ => throw (TypeError "unreachable")
     end) in
  match memo with
  | Some (dep, pl) =>
      if same_value_zero dep stateController then ret (dep, pl) else fresh
  | None => fresh
  end.

(** The context scope seen by a component: the values of the enclosing
    [StateContext.Provider]s, innermost first. *)
Definition scope := list val.

(** [createContext<any>(null)] then [useContext(StateContext)]. *)
Definition useContext (sc : scope) : val :=
  match sc with
  | [] => VNull
  | v :: _ => v
  end.

(** [ViewModelProvider({children, model})]: publishes the proxy of
    [useViewModel(model)] to the children's scope. *)
Definition ViewModelProvider (memo : option (val * loc)) (model : val)
  (sc : scope) : M (option (val * loc) * scope) :=
  let! entry := useViewModel memo model in
  ret (Some entry, VRef (snd entry) :: sc).

(** [useViewModelContext()]: lines 81-87. *)
Definition useViewModelContext (sc : scope) : exn + val :=
  let context := useContext sc in
  if negb (truthy context) then
    inl (Error "useStateContext must be used within a StateProvider")
  else inr context.

(** The per-component state of [useSubscribe]: the [useState] counter
    and the [useRef] cell [selectedValue]. *)
Record subscription : Type := mkSubscription {
  counter : Z;
  selectedValue : val
}.

(** One render of [useSubscribe(stateController, selector)], the selector
    being applied to [stateController] as [sel]. The argument of
    [useRef] is evaluated on every render, but only the first render
    stores it. The hook returns [selectedValue.current]. *)
Definition useSubscribe_render (sel : M val) (mounted : option subscription)
  : M (subscription * val) :=
  let! initial := sel in
  let h := match mounted with
           | None => mkSubscription 0 initial
           | Some h => h
           end in
  ret (h, selectedValue h).

(** [checkForUpdates], run by the effect after a render:
    [forceUpdate((x) => x + 1)] bumps the counter, which is what makes
    React render the component once more. *)
Definition checkForUpdates (sel : M val) (h : subscription) : M subscription :=
  let! newValue := sel in
  if strict_neq newValue (selectedValue h) then
    ret (mkSubscription (counter h + 1) newValue)
  else ret h.

(** A re-render is requested exactly when the counter moved. *)
Definition rerender_requested (before after : subscription) : bool :=
  negb (Z.eqb (counter before) (counter after)).

(* ------------------------------------------------------------------ *)
(** ** Concrete heaps *)

Definition heap_of (cs : list cell) : gmap loc cell :=
  list_to_map (zip (List.seq 0 (List.length cs)) cs).

Definition state_of (cs : list cell) : state :=
  mkState (heap_of cs) (List.length cs).

Definition str_array (xs : list string) : cell := CArray (map VStr xs) [].

Definition result {A} (o : outcome A) : option A :=
  match o with Ok a _ => Some a | Throw _ _ => None end.

Definition final_state {A} (o : outcome A) : state :=
  match o with Ok _ s | Throw _ s => s end.

(** The state after the ordinary assignment [target[prop] = value] on a
    plain object. *)
Definition write_prop (s : state) (t : loc) (ps : list (key * val))
  (k : key) (v : val) : state :=
  mkState (<[t := CPlain (prop_update ps k v)]> (heap s)) (next s).

(** The condition under which the claims about the set trap expect the
    write to go through: the value changes, and the key is declared or
    is a dotted string. *)
Definition write_allowed (ps : list (key * val)) (names : list string)
  (k : key) (v : val) : Prop :=
  strict_neq (own_get ps k) v = true /\
  (In (key_val k) (map VStr names) \/ key_has_dot k = true).

(** The model of the test suite (hook.spec.tsx), with its declaration
    under [properties]: [MyState] at 0 with its list at 1, and its
    [nested] [NestedState] at 2 with its list at 3. *)
Definition my_state : state := state_of [
  CPlain [(KStr "count", VNum 0); (KStr "text", VStr "");
          (KStr "nested", VRef 2); (KStr "other", VStr "unwatched");
          (KStr "properties", VRef 1)];
  str_array ["count"; "text"];
  CPlain [(KStr "foo", VStr "bar"); (KStr "properties", VRef 3)];
  str_array ["foo"]].

Definition my_state_props : list (key * val) :=
  [(KStr "count", VNum 0); (KStr "text", VStr "");
   (KStr "nested", VRef 2); (KStr "other", VStr "unwatched");
   (KStr "properties", VRef 1)].

(** Every allocated location lies below [next]. *)
Definition heap_bounded (s : state) : bool :=
  forallb (fun lc => Nat.ltb (fst lc) (next s)) (map_to_list (heap s)).


(** [typeof v === 'object' && v !== null && 'properties' in v] for a
    value stored in an ordinary cell. *)
Definition watchable_cell (c : cell) : bool :=
  cell_is_object c && cell_has c (KStr "properties").

(** The own value at [k] of a non-proxy cell, as [jget] reads it. *)
Definition cell_get (c : cell) (k : key) : val :=
  match c with
  | CPlain ps | CFunction ps | CLocked ps _ _ => own_get ps k
  | CArray es ps => array_get es ps k
  | CProxy _ => VUndefined
  end.

(** A value the get trap cannot wrap: a primitive, or a reference to an
    ordinary object that is a function or has no [properties] key. *)
Definition not_wrappable (s : state) (v : val) : Prop :=
  match v with
  | VRef vl => exists c, heap s !! vl = Some c /\ (forall x, c <> CProxy x) /\
                         watchable_cell c = false
  | _ => True
  end.


(** A value that is not an object reference. *)
Definition primitive (v : val) : Prop :=
  match v with VRef _ => False | _ => True end.



(** The nested shape of the spec's scenario with both declarations
    present: the parent at 0 declares [nested] (list at 1), the nested
    object at 2 declares [foo] (list at 3), and 4 is the proxy that
    [useViewModel] returns for the parent. *)
Definition both_declared : state := state_of [
  CPlain [(KStr "count", VNum 0); (KStr "nested", VRef 2);
          (KStr "properties", VRef 1)];
  str_array ["count"; "nested"];
  CPlain [(KStr "foo", VStr "bar"); (KStr "properties", VRef 3)];
  str_array ["foo"];
  CProxy 0].

(** A model declaring only [nested] (list at 1) whose nested object at 2
    has an empty declaration (list at 3); 4 is the model's proxy. *)
Definition dotted_model : state := state_of [
  CPlain [(KStr "nested", VRef 2); (KStr "properties", VRef 1)];
  str_array ["nested"];
  CPlain [(KStr "properties", VRef 3)];
  str_array [];
  CProxy 0].




(** A model whose [nested] object was frozen with [Object.freeze]: the
    model at 0, the frozen object at 1 with its list at 2, and 3 the
    model's proxy. *)
Definition frozen_nested : state := state_of [
  CPlain [(KStr "nested", VRef 1); (KStr "properties", VRef 2)];
  CLocked [(KStr "foo", VStr "bar"); (KStr "properties", VRef 2)]
          [KStr "foo"; KStr "properties"] false;
  str_array ["nested"];
  CProxy 0].

(** The selector [(s) => s.nested.properties.length] applied to [root]:
    it reads [nested] from the model and [properties] from the nested
    object, and then the length of that array. *)
Definition sel_nested_keys_length (fuel : nat) (root : val) : M val :=
  let! n := get_value fuel root (KStr "nested") in
  let! arr := get_value fuel n (KStr "properties") in
  get_value fuel arr (KStr "length").

(* ================================================================== *)
(** * Properties *)

(** ** Monad and heap lemmas *)

Lemma bind_ok {A B} (m : M A) (g : A -> M B) (s s' : state) (a : A) :
  m s = Ok a s' -> bind m g s = g a s'.
Proof. intros H. unfold bind. now rewrite H. Qed.

Lemma jget_plain (f : nat) (s : state) (l : loc) ps (k : key) :
  heap s !! l = Some (CPlain ps) -> jget (S f) l k s = Ok (own_get ps k) s.
Proof. intros H. cbn. now rewrite H. Qed.


Lemma jset_plain (f : nat) (s : state) (l : loc) ps (k : key) (v : val) :
  heap s !! l = Some (CPlain ps) ->
  jset (S f) l k v s = Ok tt (write_prop s l ps k v).
Proof. intros H. cbn. now rewrite H. Qed.

Lemma includes_array (s : state) (l : loc) es (x : val) :
  heap s !! l = Some (CArray es []) ->
  includes (VRef l) x s = Ok (existsb (same_value_zero x) es) s.
Proof. intros H. unfold includes. now rewrite H. Qed.

Lemma same_value_zero_str (x : val) (n : string) :
  same_value_zero x (VStr n) = true <-> x = VStr n.
Proof.
  destruct x; cbn; split; intros H; try discriminate; try congruence.
  - apply String.eqb_eq in H. now subst.
  - inversion H. apply String.eqb_refl.
Qed.

Lemma existsb_str_In (x : val) (names : list string) :
  existsb (same_value_zero x) (map VStr names) = true <-> In x (map VStr names).
Proof.
  induction names as [|n r IH]; cbn; [split; easy|].
  rewrite orb_true_iff, IH, same_value_zero_str. split; intros [H|H]; auto.
Qed.

Lemma existsb_str_sym (id : nat) (names : list string) :
  existsb (same_value_zero (VSym id)) (map VStr names) = false.
Proof. induction names; cbn; auto. Qed.

(** The set trap on an ordinary object whose [properties] is a
    [string[]], in closed form. *)
Lemma set_trap_plain (f : nat) (s : state) (t pa : loc) ps (names : list string)
  (k : key) (v : val) :
  heap s !! t = Some (CPlain ps) ->
  own_get ps (KStr "properties") = VRef pa ->
  heap s !! pa = Some (str_array names) ->
  set_trap (S (S f)) t k v s =
    Ok true
      (if strict_neq (own_get ps k) v
          && (existsb (same_value_zero (key_val k)) (map VStr names)
              || key_has_dot k)
       then write_prop s t ps k v else s).
Proof.
  intros Ht Hp Ha. cbn [set_trap].
  erewrite bind_ok by (apply jget_plain; exact Ht).
  destruct (strict_neq (own_get ps k) v) eqn:Hne; cbn [andb].
  - erewrite bind_ok.
    2:{ erewrite bind_ok by (apply jget_plain; exact Ht). rewrite Hp.
        erewrite bind_ok by (apply includes_array; exact Ha). reflexivity. }
    destruct (existsb _ _ || key_has_dot k) eqn:Hc.
    + erewrite bind_ok by (apply jset_plain; exact Ht). reflexivity.
    + reflexivity.
  - reflexivity.
Qed.

(** ** The set trap *)

(** C1: on an ordinary object whose [properties] is a [string[]], the set
    trap performs the assignment [target[prop] = value] exactly when the
    value differs by [!==] and the key is listed in [properties] or is a
    string containing a dot; otherwise the state is left as it was; in
    both cases the trap returns [true]. *)
Theorem set_trap_write_iff (f : nat) (s : state) (t pa : loc)
  (ps : list (key * val)) (names : list string) (k : key) (v : val) :
  heap s !! t = Some (CPlain ps) ->
  own_get ps (KStr "properties") = VRef pa ->
  heap s !! pa = Some (str_array names) ->
  exists s', set_trap (S (S f)) t k v s = Ok true s' /\
    (write_allowed ps names k v -> s' = write_prop s t ps k v) /\
    (~ write_allowed ps names k v -> s' = s).
Proof.
  intros Ht Hp Ha. rewrite (set_trap_plain f s t pa ps names k v Ht Hp Ha).
  eexists; split; [reflexivity|]. unfold write_allowed.
  rewrite <- existsb_str_In.
  destruct (strict_neq (own_get ps k) v), (existsb _ _), (key_has_dot k);
    cbn; split; intros H; try reflexivity; exfalso;
    first [ destruct H as [H1 [H2|H2]]; discriminate | apply H; split; auto ].
Qed.

Lemma set_trap_write_iff_witness :
  heap my_state !! 0%nat = Some (CPlain my_state_props) /\
  exists s', set_trap 2 0 (KStr "count") (VNum 1) my_state = Ok true s' /\
    (write_allowed my_state_props ["count"; "text"] (KStr "count") (VNum 1) ->
     s' = write_prop my_state 0 my_state_props (KStr "count") (VNum 1)) /\
    (~ write_allowed my_state_props ["count"; "text"] (KStr "count") (VNum 1) ->
     s' = my_state).
Proof.
  split; [reflexivity|].
  apply (set_trap_write_iff 0 my_state 0 1 my_state_props ["count"; "text"]);
    reflexivity.
Defined.

(** C10: a write whose key is a symbol never goes through: with a
    [string[]] declaration the membership test cannot match a symbol and
    the dotted-key allowance is for strings only; the trap still returns
    [true] and the state is unchanged. *)
Theorem set_trap_symbol_noop (f : nat) (s : state) (t pa : loc)
  (ps : list (key * val)) (names : list string) (id : nat) (v : val) :
  heap s !! t = Some (CPlain ps) ->
  own_get ps (KStr "properties") = VRef pa ->
  heap s !! pa = Some (str_array names) ->
  set_trap (S (S f)) t (KSym id) v s = Ok true s.
Proof.
  intros Ht Hp Ha. rewrite (set_trap_plain f s t pa ps names (KSym id) v Ht Hp Ha).
  cbn [key_val key_has_dot]. rewrite existsb_str_sym, andb_false_r. reflexivity.
Qed.

Lemma set_trap_symbol_noop_witness :
  set_trap 2 0 (KSym 7) (VNum 1) my_state = Ok true my_state.
Proof.
  apply (set_trap_symbol_noop 0 my_state 0 1 my_state_props ["count"; "text"]);
    reflexivity.
Defined.

(** ** Selector subscription *)

(** C2: when the selector evaluates to [newValue], [checkForUpdates]
    compares it with the cached value by [!==]: if it differs, the cache
    becomes [newValue] and the counter is bumped once (one re-render is
    requested); otherwise the subscription is left as it was and no
    re-render is requested. Every render returns the cached value: the
    selector's first result on mount, the cache afterwards. *)
Theorem useSubscribe_check_spec (sel : M val) (h : subscription) (s s' : state)
  (newValue : val) :
  sel s = Ok newValue s' ->
  exists h', checkForUpdates sel h s = Ok h' s' /\
    (strict_neq newValue (selectedValue h) = true ->
       h' = mkSubscription (counter h + 1) newValue /\
       rerender_requested h h' = true) /\
    (strict_neq newValue (selectedValue h) = false ->
       h' = h /\ rerender_requested h h' = false) /\
    useSubscribe_render sel (Some h) s = Ok (h, selectedValue h) s' /\
    useSubscribe_render sel None s =
      Ok (mkSubscription 0 newValue, newValue) s'.
Proof.
  intros Hsel. unfold checkForUpdates, useSubscribe_render.
  rewrite !(bind_ok _ _ _ _ _ Hsel).
  destruct (strict_neq newValue (selectedValue h)) eqn:Hne.
  - eexists; split; [reflexivity|]. repeat split; try discriminate.
    unfold rerender_requested; cbn. rewrite negb_true_iff, Z.eqb_neq. lia.
  - eexists; split; [reflexivity|]. repeat split; try discriminate.
    unfold rerender_requested. now rewrite Z.eqb_refl.
Qed.

Lemma useSubscribe_check_spec_witness :
  ret (VNum 1) my_state = Ok (VNum 1) my_state /\
  exists h', checkForUpdates (ret (VNum 1)) (mkSubscription 0 (VNum 0)) my_state
               = Ok h' my_state /\
    (strict_neq (VNum 1) (VNum 0) = true ->
       h' = mkSubscription (0 + 1) (VNum 1) /\
       rerender_requested (mkSubscription 0 (VNum 0)) h' = true) /\
    (strict_neq (VNum 1) (VNum 0) = false ->
       h' = mkSubscription 0 (VNum 0) /\
       rerender_requested (mkSubscription 0 (VNum 0)) h' = false) /\
    useSubscribe_render (ret (VNum 1)) (Some (mkSubscription 0 (VNum 0))) my_state
      = Ok (mkSubscription 0 (VNum 0), VNum 0) my_state /\
    useSubscribe_render (ret (VNum 1)) None my_state =
      Ok (mkSubscription 0 (VNum 1), VNum 1) my_state.
Proof.
  split; [reflexivity|].
  apply (useSubscribe_check_spec (ret (VNum 1)) (mkSubscription 0 (VNum 0))
           my_state my_state (VNum 1)).
  reflexivity.
Defined.

(** ** Context *)

(** C8: with no provider in scope, [useViewModelContext] throws the
    "used outside provider" error; below a [ViewModelProvider] it returns
    the proxy that provider published. *)
Theorem useViewModelContext_spec (memo : option (val * loc)) (model : val)
  (sc : scope) (s : state) (memo' : option (val * loc)) (sc' : scope)
  (s' : state) :
  ViewModelProvider memo model sc s = Ok (memo', sc') s' ->
  useViewModelContext [] =
    inl (Error "useStateContext must be used within a StateProvider") /\
  exists dep p, memo' = Some (dep, p) /\ useViewModelContext sc' = inr (VRef p).
Proof.
  intros H. split; [reflexivity|].
  unfold ViewModelProvider, useViewModel, createProxy, bind, ret, throw, alloc in H.
  destruct memo as [[dep p]|].
  - destruct (same_value_zero dep model).
    + inversion H; subst. eauto.
    + destruct model; inversion H; subst; eauto.
  - destruct model; inversion H; subst; eauto.
Qed.

Lemma useViewModelContext_spec_witness :
  ViewModelProvider None (VRef 0) [] my_state
    = Ok (Some (VRef 0, 4%nat), [VRef 4]) (final_state (alloc (CProxy 0) my_state)) /\
  useViewModelContext [] =
    inl (Error "useStateContext must be used within a StateProvider") /\
  exists dep p, Some (VRef 0, 4%nat) = Some (dep, p) /\
    useViewModelContext [VRef 4] = inr (VRef p).
Proof.
  split; [reflexivity|].
  apply (useViewModelContext_spec None (VRef 0) [] my_state
           (Some (VRef 0, 4%nat)) [VRef 4] (final_state (alloc (CProxy 0) my_state))).
  reflexivity.
Defined.

(** ** The get trap *)

Lemma key_eqb_refl (k : key) : key_eqb k k = true.
Proof. destruct k; cbn; [apply String.eqb_refl | apply Nat.eqb_refl]. Qed.

Lemma own_get_prop_update_same (ps : list (key * val)) (k : key) (v : val) :
  own_get (prop_update ps k v) k = v.
Proof.
  unfold own_get. induction ps as [|[k' v'] r IH]; cbn.
  - now rewrite key_eqb_refl.
  - destruct (key_eqb k k') eqn:E; cbn; rewrite ?E; auto.
Qed.


Lemma heap_bounded_lt (s : state) (l : loc) (c : cell) :
  heap_bounded s = true -> heap s !! l = Some c -> (l < next s)%nat.
Proof.
  intros Hb Hl. unfold heap_bounded in Hb. rewrite forallb_forall in Hb.
  apply elem_of_map_to_list, list_elem_of_In in Hl.
  apply Hb in Hl. cbn in Hl. now apply Nat.ltb_lt.
Qed.


Lemma deref_plain (f : nat) (s : state) (l : loc) (c : cell) :
  heap s !! l = Some c -> (forall t, c <> CProxy t) ->
  deref (S f) l s = Ok c s.
Proof.
  intros H Hnp. unfold deref. cbn. rewrite H.
  destruct c; auto. exfalso; eapply Hnp; reflexivity.
Qed.


Lemma jget_cell (f : nat) (s : state) (l : loc) (c : cell) (k : key) :
  heap s !! l = Some c -> (forall t, c <> CProxy t) ->
  jget (S f) l k s = Ok (cell_get c k) s.
Proof.
  intros H Hnp. cbn. rewrite H.
  destruct c; auto. exfalso; eapply Hnp; reflexivity.
Qed.












(** The get trap returns a value it cannot wrap as it is, and changes
    nothing. *)
Lemma get_trap_not_wrappable (f : nat) (s : state) (t : loc) (c : cell) (k : key) :
  heap s !! t = Some c -> (forall x, c <> CProxy x) ->
  not_wrappable s (cell_get c k) ->
  get_trap (S (S f)) t k s = Ok (cell_get c k) s.
Proof.
  intros Ht Hnp Hw. cbn [get_trap].
  erewrite bind_ok by (apply jget_cell; [exact Ht | exact Hnp]).
  destruct (cell_get c k) as [| | | | | | |vl]; try reflexivity.
  destruct Hw as [c' [Hc' [Hnp' Hw']]].
  erewrite bind_ok by (apply deref_plain; [exact Hc' | exact Hnp']).
  unfold watchable_cell in Hw'. rewrite Hw'. reflexivity.
Qed.



Lemma alloc_state_lookup (s : state) (c : cell) (l : loc) :
  heap (alloc_state s c) !! l = if decide (l = next s) then Some c else heap s !! l.
Proof.
  unfold alloc_state. cbn. destruct (decide (l = next s)) as [->|Hne].
  - apply lookup_insert_eq.
  - now rewrite lookup_insert_ne by congruence.
Qed.














(** ** Writes and reads along a nested path *)




(** A read through a proxy whose target is, after the trap, an ordinary
    plain object: the proxy's invariant check passes. *)
Lemma jget_proxy (f : nat) (s s' : state) (p t : loc) (k : key) (r : val) :
  heap s !! p = Some (CProxy t) -> get_trap (S f) t k s = Ok r s' ->
  (exists ps', heap s' !! t = Some (CPlain ps')) ->
  jget (S (S f)) p k s = Ok r s'.
Proof.
  intros H Hg [ps' Ht]. cbn [jget]. rewrite H.
  rewrite (bind_ok _ _ _ _ _ Hg).
  rewrite (bind_ok _ _ _ _ _ (deref_plain f s' t _ Ht ltac:(discriminate))).
  reflexivity.
Qed.

(** A write through a proxy whose trap reports success, with an ordinary
    plain target after the trap. *)
Lemma jset_proxy (f : nat) (s s' : state) (p t : loc) (k : key) (v : val) :
  heap s !! p = Some (CProxy t) -> set_trap (S f) t k v s = Ok true s' ->
  (exists ps', heap s' !! t = Some (CPlain ps')) ->
  jset (S (S f)) p k v s = Ok tt s'.
Proof.
  intros H Hs [ps' Ht]. cbn [jset]. rewrite H.
  rewrite (bind_ok _ _ _ _ _ Hs).
  rewrite (bind_ok _ _ _ _ _ (deref_plain f s' t _ Ht ltac:(discriminate))).
  reflexivity.
Qed.


Lemma existsb_str_decide (x : string) (l : list string) :
  existsb (same_value_zero (VStr x)) (map VStr l) = bool_decide (x ∈ l).
Proof.
  apply Bool.eq_iff_eq_true. rewrite existsb_str_In, bool_decide_eq_true,
    list_elem_of_In, in_map_iff.
  split; [intros [y [Hy Hin]]; inversion Hy; subst; exact Hin|].
  intros Hin. exists x. auto.
Qed.









(** ** Writes to undeclared properties *)

(** C7 (corrected): a write through the proxy to a key that is neither
    in the target's [properties] list nor a string containing a dot
    leaves the whole state as it was, so a later [checkForUpdates], with
    any selector, runs exactly as it would have without the write and
    requests no re-render because of it. (An undeclared string key with a
    dot is still written; see the counterexample below.) *)
Theorem unlisted_write_noop (f : nat) (s : state) (p t pa : loc)
  (ps : list (key * val)) (names : list string) (q : key) (v : val)
  (sel : M val) (h : subscription) :
  heap s !! p = Some (CProxy t) ->
  heap s !! t = Some (CPlain ps) ->
  own_get ps (KStr "properties") = VRef pa ->
  heap s !! pa = Some (str_array names) ->
  ~ In (key_val q) (map VStr names) ->
  key_has_dot q = false ->
  jset (S (S (S f))) p q v s = Ok tt s /\
  (let! _u := jset (S (S (S f))) p q v in checkForUpdates sel h) s
    = checkForUpdates sel h s.
Proof.
  intros Hp Ht Hpa Ha Hnin Hdot.
  assert (Hs : jset (S (S (S f))) p q v s = Ok tt s).
  { apply (jset_proxy _ _ _ _ t); [exact Hp| |eauto].
    rewrite (set_trap_plain f s t pa ps names q v Ht Hpa Ha), Hdot.
    destruct (existsb _ _) eqn:E.
    - apply existsb_str_In in E. contradiction.
    - now rewrite andb_false_r. }
  split; [exact Hs|]. now rewrite (bind_ok _ _ _ _ _ Hs).
Qed.

Lemma unlisted_write_noop_witness :
  jset 3 4 (KStr "other") (VNum 1) dotted_model = Ok tt dotted_model /\
  (let! _u := jset 3 4 (KStr "other") (VNum 1) in
   checkForUpdates (sel_nested_keys_length 10 (VRef 4)) (mkSubscription 0 (VNum 2)))
    dotted_model
  = checkForUpdates (sel_nested_keys_length 10 (VRef 4)) (mkSubscription 0 (VNum 2))
      dotted_model.
Proof.
  apply (unlisted_write_noop 0 dotted_model 4 0 1
           [(KStr "nested", VRef 2); (KStr "properties", VRef 1)] ["nested"]);
    try reflexivity.
  cbn. intros [H|H]; [discriminate | contradiction].
Defined.

(** Counterexample to C7 as stated: ["a.b"] is not declared by the model,
    yet writing it through the proxy is applied. The selector
    [s => s.nested.properties.length] reads only declared keys: [nested]
    is in the model's list, and [properties] is in the nested object's
    list when it is read (the list at 7 below). Its value goes from 2 to
    3, and the check requests a re-render. *)
Lemma unlisted_dotted_write_rerenders :
  heap dotted_model !! 1%nat = Some (str_array ["nested"]) /\
  ~ In (key_val (KStr "a.b")) (map VStr ["nested"]) /\
  exists s0 s1 s2 h1,
    useSubscribe_render (sel_nested_keys_length 10 (VRef 4)) None dotted_model
      = Ok (mkSubscription 0 (VNum 2), VNum 2) s0 /\
    set_value 10 (VRef 4) (KStr "a.b") (VNum 1) s0 = Ok tt s1 /\
    checkForUpdates (sel_nested_keys_length 10 (VRef 4)) (mkSubscription 0 (VNum 2)) s1
      = Ok h1 s2 /\
    selectedValue h1 = VNum 3 /\
    rerender_requested (mkSubscription 0 (VNum 2)) h1 = true /\
    heap s2 !! 2%nat = Some (CPlain [(KStr "properties", VRef 7)]) /\
    heap s2 !! 7%nat = Some (str_array ["nested"; "properties"; "a.b"]).
Proof.
  split; [reflexivity|]. split.
  - cbn. intros [H|H]; [discriminate | contradiction].
  - do 4 eexists. repeat split; reflexivity.
Qed.

(* ================================================================== *)
(** * Further properties of the code *)

(** ** Helper lemmas *)

Lemma bind_throw {A B} (m : M A) (g : A -> M B) (s s' : state) (e : exn) :
  m s = Throw e s' -> bind m g s = Throw e s'.
Proof. intros H. unfold bind. now rewrite H. Qed.

Lemma strict_eq_eq (a b : val) : strict_eq a b = true -> a = b.
Proof.
  destruct a, b; cbn; intros H; try discriminate; try reflexivity.
  - apply Bool.eqb_prop in H. now subst.
  - apply Z.eqb_eq in H. now subst.
  - apply String.eqb_eq in H. now subst.
  - apply Nat.eqb_eq in H. now subst.
  - apply Nat.eqb_eq in H. now subst.
Qed.

(** [v === v] fails exactly on NaN. *)
Lemma strict_eq_self (v : val) : strict_eq v v = false <-> v = VNaN.
Proof.
  destruct v; cbn;
    rewrite ?Bool.eqb_reflx, ?Z.eqb_refl, ?String.eqb_refl, ?Nat.eqb_refl;
    split; intros H; try discriminate; reflexivity.
Qed.






Lemma set_trap_missing_props (f : nat) (s : state) (t : loc) ps (k : key) (v : val) :
  heap s !! t = Some (CPlain ps) ->
  own_get ps (KStr "properties") = VUndefined \/
  own_get ps (KStr "properties") = VNull ->
  set_trap (S (S f)) t k v s =
    if strict_neq (own_get ps k) v
    then Throw (TypeError
           match own_get ps (KStr "properties") with
           | VNull => "Cannot read properties of null (reading 'includes')"
           | _ => "Cannot read properties of undefined (reading 'includes')"
           end) s
    else Ok true s.
Proof.
  intros Ht Hp. cbn [set_trap].
  erewrite bind_ok by (apply jget_plain; exact Ht).
  destruct (strict_neq (own_get ps k) v); [|reflexivity].
  apply bind_throw.
  erewrite bind_ok by (apply jget_plain; exact Ht).
  destruct Hp as [Hp|Hp]; rewrite Hp; reflexivity.
Qed.

Lemma set_value_missing_props (f : nat) (s : state) (p t : loc)
  (ps : list (key * val)) (k : key) (v : val) (msg : string) :
  heap s !! p = Some (CProxy t) ->
  heap s !! t = Some (CPlain ps) ->
  set_trap (S (S f)) t k v s =
    (if strict_neq (own_get ps k) v then Throw (TypeError msg) s else Ok true s) ->
  set_value (S (S (S f))) (VRef p) k v s =
    if strict_neq (own_get ps k) v then Throw (TypeError msg) s else Ok tt s.
Proof.
  intros Hp Ht Hs. cbn [set_value]. revert Hs.
  destruct (strict_neq (own_get ps k) v); intros Hs.
  - cbn [jset]. rewrite Hp. apply bind_throw. exact Hs.
  - apply (jset_proxy _ _ _ _ t); [exact Hp | exact Hs | eauto].
Qed.

(** ** [useSubscribe] *)

(** X4: on mount, [useSubscribe] caches the selector's value with the
    counter at 0, and the effect's initial check, as every later check,
    requests a re-render exactly when that value is NaN (for a selector
    that keeps returning the same value and changes no state). *)
Theorem useSubscribe_mount_check (sel : M val) (s : state) (v : val) :
  sel s = Ok v s ->
  exists h, useSubscribe_render sel None s = Ok (h, v) s /\
    counter h = 0%Z /\
    exists h', checkForUpdates sel h s = Ok h' s /\ selectedValue h' = v /\
      (rerender_requested h h' = true <-> v = VNaN) /\
      exists h'', checkForUpdates sel h' s = Ok h'' s /\
        (rerender_requested h' h'' = true <-> v = VNaN).
Proof.
  intros Hsel.
  assert (Hchk : forall h, selectedValue h = v ->
    exists h', checkForUpdates sel h s = Ok h' s /\ selectedValue h' = v /\
      (rerender_requested h h' = true <-> v = VNaN)).
  { intros h Hh. unfold checkForUpdates. rewrite (bind_ok _ _ _ _ _ Hsel), Hh.
    unfold strict_neq. destruct (strict_eq v v) eqn:E; cbn [negb].
    - exists h. split; [reflexivity|]. split; [exact Hh|].
      unfold rerender_requested. rewrite Z.eqb_refl. cbn.
      split; [discriminate|]. intros Hn. apply strict_eq_self in Hn. congruence.
    - eexists. split; [reflexivity|]. split; [reflexivity|].
      unfold rerender_requested. cbn. split; [intros _; now apply strict_eq_self|].
      intros _. rewrite negb_true_iff, Z.eqb_neq. lia. }
  exists (mkSubscription 0 v). split.
  { unfold useSubscribe_render. now rewrite (bind_ok _ _ _ _ _ Hsel). }
  split; [reflexivity|].
  destruct (Hchk (mkSubscription 0 v) eq_refl) as [h' [H1 [H2 H3]]].
  exists h'. split; [exact H1|]. split; [exact H2|]. split; [exact H3|].
  destruct (Hchk h' H2) as [h'' [H4 [_ H5]]]. eauto.
Qed.

Lemma useSubscribe_mount_check_witness :
  exists h, useSubscribe_render (ret VNaN) None my_state = Ok (h, VNaN) my_state /\
    counter h = 0%Z /\
    exists h', checkForUpdates (ret VNaN) h my_state = Ok h' my_state /\
      selectedValue h' = VNaN /\
      (rerender_requested h h' = true <-> VNaN = VNaN) /\
      exists h'', checkForUpdates (ret VNaN) h' my_state = Ok h'' my_state /\
        (rerender_requested h' h'' = true <-> VNaN = VNaN).
Proof. apply (useSubscribe_mount_check (ret VNaN) my_state VNaN). reflexivity. Defined.


(** ** Assignments through the proxy *)

(** X6: an assignment through the proxy of an object with no
    [properties] (missing or [undefined], or [null]) throws a [TypeError]
    when the value changes by [!==], because the trap calls
    [target.properties.includes]: its message reads "of undefined" or
    "of null" after the value found. When the value is unchanged the
    assignment is a silent no-op. *)
Theorem assign_without_properties (f : nat) (s : state) (p t : loc)
  (ps : list (key * val)) (k : key) (v : val) :
  heap s !! p = Some (CProxy t) ->
  heap s !! t = Some (CPlain ps) ->
  (own_get ps (KStr "properties") = VUndefined ->
   set_value (S (S (S f))) (VRef p) k v s =
     if strict_neq (own_get ps k) v
     then Throw (TypeError "Cannot read properties of undefined (reading 'includes')") s
     else Ok tt s) /\
  (own_get ps (KStr "properties") = VNull ->
   set_value (S (S (S f))) (VRef p) k v s =
     if strict_neq (own_get ps k) v
     then Throw (TypeError "Cannot read properties of null (reading 'includes')") s
     else Ok tt s).
Proof.
  intros Hp Ht. split; intros Hu.
  - apply (set_value_missing_props _ _ _ t); [exact Hp | exact Ht |].
    rewrite (set_trap_missing_props f s t ps k v Ht (or_introl Hu)), Hu. reflexivity.
  - apply (set_value_missing_props _ _ _ t); [exact Hp | exact Ht |].
    rewrite (set_trap_missing_props f s t ps k v Ht (or_intror Hu)), Hu. reflexivity.
Qed.

Lemma assign_without_properties_witness :
  set_value 3 (VRef 1) (KStr "foo") (VStr "baz")
    (state_of [CPlain [(KStr "foo", VStr "bar")]; CProxy 0]) =
    Throw (TypeError "Cannot read properties of undefined (reading 'includes')")
      (state_of [CPlain [(KStr "foo", VStr "bar")]; CProxy 0]) /\
  set_value 3 (VRef 1) (KStr "foo") (VStr "baz")
    (state_of [CPlain [(KStr "foo", VStr "bar"); (KStr "properties", VNull)]; CProxy 0]) =
    Throw (TypeError "Cannot read properties of null (reading 'includes')")
      (state_of [CPlain [(KStr "foo", VStr "bar"); (KStr "properties", VNull)]; CProxy 0]) /\
  set_value 3 (VRef 1) (KStr "foo") (VStr "bar")
    (state_of [CPlain [(KStr "foo", VStr "bar")]; CProxy 0]) =
    Ok tt (state_of [CPlain [(KStr "foo", VStr "bar")]; CProxy 0]).
Proof.
  split; [|split].
  - destruct (assign_without_properties 0 (state_of [CPlain [(KStr "foo", VStr "bar")]; CProxy 0])
                1 0 [(KStr "foo", VStr "bar")] (KStr "foo") (VStr "baz")) as [H _];
      [reflexivity | reflexivity |].
    rewrite H by reflexivity. reflexivity.
  - destruct (assign_without_properties 0
                (state_of [CPlain [(KStr "foo", VStr "bar"); (KStr "properties", VNull)];
                           CProxy 0])
                1 0 [(KStr "foo", VStr "bar"); (KStr "properties", VNull)]
                (KStr "foo") (VStr "baz")) as [_ H];
      [reflexivity | reflexivity |].
    rewrite H by reflexivity. reflexivity.
  - destruct (assign_without_properties 0 (state_of [CPlain [(KStr "foo", VStr "bar")]; CProxy 0])
                1 0 [(KStr "foo", VStr "bar")] (KStr "foo") (VStr "bar")) as [H _];
      [reflexivity | reflexivity |].
    rewrite H by reflexivity. reflexivity.
Defined.

(** X7: after [proxy[x] = v] for a key [x] listed in the target's
    [properties] or containing a dot, and a primitive [v], reading
    [proxy[x]] gives [v]. *)
Theorem assign_then_read (f : nat) (s : state) (p t pa : loc)
  (ps : list (key * val)) (names : list string) (x : string) (v : val) :
  heap s !! p = Some (CProxy t) ->
  heap s !! t = Some (CPlain ps) ->
  own_get ps (KStr "properties") = VRef pa ->
  heap s !! pa = Some (str_array names) ->
  In x names \/ has_dot x = true ->
  primitive v ->
  exists s', set_value (S (S (S f))) (VRef p) (KStr x) v s = Ok tt s' /\
    get_value (S (S (S f))) (VRef p) (KStr x) s' = Ok v s'.
Proof.
  intros Hp Ht Hpa Ha Hx Hprim.
  assert (Hpt : p <> t) by (intros ->; congruence).
  pose proof (set_trap_plain f s t pa ps names (KStr x) v Ht Hpa Ha) as Hset.
  cbn [set_value get_value].
  destruct (strict_neq (own_get ps (KStr x)) v
            && (existsb (same_value_zero (key_val (KStr x))) (map VStr names)
                || key_has_dot (KStr x))) eqn:Ec.
  - assert (Hwt : heap (write_prop s t ps (KStr x) v) !! t
                  = Some (CPlain (prop_update ps (KStr x) v)))
      by (cbn; apply lookup_insert_eq).
    exists (write_prop s t ps (KStr x) v).
    split; [apply (jset_proxy _ _ _ _ t); [exact Hp | exact Hset | eauto]|].
    apply (jget_proxy _ _ _ _ t); [cbn; rewrite lookup_insert_ne by congruence; exact Hp| |eauto].
    pose proof (get_trap_not_wrappable f (write_prop s t ps (KStr x) v) t
                  (CPlain (prop_update ps (KStr x) v)) (KStr x)) as Hg.
    cbn [cell_get] in Hg. rewrite own_get_prop_update_same in Hg. apply Hg.
    + exact Hwt.
    + discriminate.
    + destruct v; cbn in Hprim |- *; tauto.
  - exists s. split; [apply (jset_proxy _ _ _ _ t); [exact Hp | exact Hset | eauto]|].
    assert (Hold : own_get ps (KStr x) = v).
    { apply andb_false_iff in Ec. destruct Ec as [Ec|Ec].
      - unfold strict_neq in Ec. apply negb_false_iff, strict_eq_eq in Ec. exact Ec.
      - exfalso. cbn [key_val key_has_dot] in Ec.
        rewrite existsb_str_decide in Ec. apply orb_false_iff in Ec.
        destruct Ec as [E1 E2]. destruct Hx as [Hx|Hx]; [|congruence].
        apply bool_decide_eq_false in E1. apply E1, list_elem_of_In, Hx. }
    apply (jget_proxy _ _ _ _ t); [exact Hp | | eauto].
    pose proof (get_trap_not_wrappable f s t (CPlain ps) (KStr x)) as Hg.
    cbn [cell_get] in Hg. rewrite Hold in Hg. apply Hg; [exact Ht | discriminate|].
    destruct v; cbn in Hprim |- *; tauto.
Qed.

Lemma assign_then_read_witness :
  exists s', set_value 3 (VRef 4) (KStr "count") (VNum 5) both_declared = Ok tt s' /\
    get_value 3 (VRef 4) (KStr "count") s' = Ok (VNum 5) s'.
Proof.
  apply (assign_then_read 0 both_declared 4 0 1
           [(KStr "count", VNum 0); (KStr "nested", VRef 2); (KStr "properties", VRef 1)]
           ["count"; "nested"]); try reflexivity; cbn; auto.
Defined.



(** X10: reading through the model's proxy a key whose value is a plain
    object with a read-only [properties] (a frozen nested object, say)
    throws the strict-mode [TypeError] of the assignment
    [watchableValue.properties = Object.keys(target)], after the fresh
    array of keys is allocated. *)
Theorem read_frozen_nested_throws (f : nat) (s : state) (p t vl : loc)
  (ps ps2 : list (key * val)) (ro : list key) (ext : bool) (k : key) (u : val) :
  heap_bounded s = true ->
  heap s !! p = Some (CProxy t) ->
  heap s !! t = Some (CPlain ps) ->
  own_get ps k = VRef vl ->
  heap s !! vl = Some (CLocked ps2 ro ext) ->
  prop_lookup ps2 (KStr "properties") = Some u ->
  existsb (key_eqb (KStr "properties")) ro = true ->
  get_value (S (S (S f))) (VRef p) k s =
    Throw (TypeError "Cannot assign to read only property")
          (alloc_state s (str_array (object_keys ps))).
Proof.
  intros Hb Hp Ht Hv Hvl Hu Hro.
  assert (Hlt : (vl < next s)%nat) by (eapply heap_bounded_lt; eauto).
  cbn [get_value jget]. rewrite Hp. apply bind_throw.
  cbn [get_trap].
  erewrite bind_ok by (apply jget_plain; exact Ht). rewrite Hv.
  erewrite bind_ok by (apply deref_plain; [exact Hvl | discriminate]).
  cbn [cell_is_object cell_has andb]. rewrite Hu.
  erewrite bind_ok by (apply deref_plain; [exact Ht | discriminate]).
  cbn [cell_is_object cell_is_array negb andb cell_keys].
  apply bind_throw. unfold alloc. erewrite bind_ok by reflexivity.
  cbn [jset]. rewrite alloc_state_lookup. destruct decide; [lia|].
  rewrite Hvl, Hu, Hro. reflexivity.
Qed.

Lemma read_frozen_nested_throws_witness :
  get_value 3 (VRef 3) (KStr "nested") frozen_nested =
    Throw (TypeError "Cannot assign to read only property")
          (alloc_state frozen_nested
             (str_array (object_keys [(KStr "nested", VRef 1); (KStr "properties", VRef 2)]))).
Proof.
  apply (read_frozen_nested_throws 0 frozen_nested 3 0 1
           [(KStr "nested", VRef 1); (KStr "properties", VRef 2)]
           [(KStr "foo", VStr "bar"); (KStr "properties", VRef 2)]
           [KStr "foo"; KStr "properties"] false (KStr "nested") (VRef 2));
    reflexivity.
Defined.
